(** * ConnectAssist: the remote inference client and the Streamlit screens

    A shallow embedding of [app.py].  Python values coming back from the
    remote service are kept as a small value type; the [requests] transport,
    [pandas] and the Streamlit widgets are the environment: the transport is
    an oracle from the request history to an outcome, widgets are inputs of a
    render, and everything a render draws is appended to a log. *)

From Stdlib Require Import ZArith List String Ascii Bool Lia.
From Stdlib Require Import Floats DecimalString.
Import ListNotations.
Set Warnings "-register-all,-inexact-float".
Local Open Scope string_scope.
Local Open Scope Z_scope.

(** ** Python values *)

(** What [response.json()] can return, and what the client functions hand
    back to the screens.  A [dict] keeps its items in order; [lookup] below
    reads the first binding of a key. *)
Inductive pyval : Type :=
| PyNone
| PyBool (b : bool)
| PyInt (n : Z)
| PyFloat (x : float)
| PyStr (s : string)
| PyList (items : list pyval)
| PyDict (entries : list (string * pyval)).

Definition type_name (v : pyval) : string :=
  match v with
  | PyNone => "NoneType"
  | PyBool _ => "bool"
  | PyInt _ => "int"
  | PyFloat _ => "float"
  | PyStr _ => "str"
  | PyList _ => "list"
  | PyDict _ => "dict"
  end.

Definition str_of_int (n : Z) : string := NilZero.string_of_int (Z.to_int n).

Fixpoint lookup {A : Type} (key : string) (entries : list (string * A)) : option A :=
  match entries with
  | [] => None
  | (k, v) :: rest => if String.eqb k key then Some v else lookup key rest
  end.

(** [s.startswith(p)] *)
Definition startswith (s p : string) : bool := String.prefix p s.

(** ** Exceptions *)

(** What [requests.post] raises: a connection error, a timeout, too many
    redirects...  [requests] raises [HTTPError] from [raise_for_status] only,
    so a transport failure is never one. *)
Record transport_failure : Type := {
  failure_class : string;
  failure_message : string
}.

Inductive exn : Type :=
| HTTPError (msg : string)
| RequestFailure (f : transport_failure)
| JSONDecodeError (msg : string)
| AttributeError (msg : string)
| IndexError (msg : string)
| KeyError (key_repr : string)
| TypeError (msg : string)
| ValueError (msg : string).

(** [str(err)], what an f-string prints for [{err}]. *)
Definition exn_str (e : exn) : string :=
  match e with
  | HTTPError msg => msg
  | RequestFailure f => failure_message f
  | JSONDecodeError msg => msg
  | AttributeError msg => msg
  | IndexError msg => msg
  | KeyError key_repr => key_repr
  | TypeError msg => msg
  | ValueError msg => msg
  end.

Definition result (A : Type) : Type := (exn + A)%type.

Definition no_attribute (v : pyval) (attr : string) : exn :=
  AttributeError ("'" ++ type_name v ++ "' object has no attribute '" ++ attr ++ "'").

(** [v.get(key, default)]: only a dict has the method. *)
Definition py_get (v : pyval) (key : string) (default : pyval) : result pyval :=
  match v with
  | PyDict entries =>
      inr (match lookup key entries with Some x => x | None => default end)
  | _ => inl (no_attribute v "get")
  end.

(** [v[0]] *)
Definition py_item0 (v : pyval) : result pyval :=
  match v with
  | PyList [] => inl (IndexError "list index out of range")
  | PyList (x :: _) => inr x
  | PyStr EmptyString => inl (IndexError "string index out of range")
  | PyStr (String c _) => inr (PyStr (String c EmptyString))
  | PyDict _ => inl (KeyError "0")
  | _ => inl (TypeError ("'" ++ type_name v ++ "' object is not subscriptable"))
  end.

(** ** The transport *)

Definition bytes : Type := list Byte.byte.

Inductive request : Type :=
| PostJson (url : string) (json : pyval) (headers : list (string * string))
| PostFiles (url : string) (files : list (string * (string * bytes * string)))
            (headers : list (string * string)).

(** A [requests.Response], as far as the program looks at it: [json_body] is
    what [response.json()] does, the decoded body or the decoder's message. *)
Record response : Type := {
  status_code : Z;
  reason : string;
  url : string;
  text : string;
  json_body : string + pyval
}.

(** [Response.raise_for_status] of [requests]: 4xx and 5xx raise, nothing
    else does. *)
Definition raise_for_status (r : response) : result unit :=
  if (400 <=? status_code r) && (status_code r <? 500) then
    inl (HTTPError (str_of_int (status_code r) ++ " Client Error: " ++ reason r
                    ++ " for url: " ++ url r))
  else if (500 <=? status_code r) && (status_code r <? 600) then
    inl (HTTPError (str_of_int (status_code r) ++ " Server Error: " ++ reason r
                    ++ " for url: " ++ url r))
  else inr tt.

Definition response_json (r : response) : result pyval :=
  match json_body r with
  | inl msg => inl (JSONDecodeError msg)
  | inr v => inr v
  end.

Definition is_2xx (r : response) : Prop := 200 <= status_code r < 300.

(** ** Tables and uploads *)

Record UploadedFile : Type := {
  file_name : string;
  file_bytes : bytes
}.

(** [uploaded.read()] *)
Definition read (f : UploadedFile) : bytes := file_bytes f.

Definition Series : Type := list pyval.

(** A [pandas.DataFrame]: named columns of cells. *)
Definition DataFrame : Type := list (string * Series).

Definition columns (data : DataFrame) : list string := map fst data.

(** [name in data.columns] *)
Definition has_column (name : string) (data : DataFrame) : bool :=
  existsb (String.eqb name) (columns data).

(** [data[name]] *)
Definition getitem (data : DataFrame) (name : string) : result Series :=
  match lookup name data with
  | Some col => inr col
  | None => inl (KeyError ("'" ++ name ++ "'"))
  end.

(** [data.head()] *)
Definition head (data : DataFrame) : DataFrame :=
  map (fun col => (fst col, firstn 5 (snd col))) data.

(** ** What a render draws *)

Inductive ui : Type :=
| set_page_config (page_title layout : string)
| sidebar_title (s : string)
| title (s : string)
| header (s : string)
| subheader (s : string)
| markdown (s : string)
| write (v : pyval)
| error (v : pyval)
| warning (s : string)
| success (s : string)
| spinner (s : string)
| image_url (src : string) (caption : option string)
| image_upload (f : UploadedFile) (caption : option string)
| video (src : string)
| dataframe (data : DataFrame)
| line_chart (s : Series)
| bar_chart (s : Series)
| in_column (i : nat) (u : ui).

(** ** Renders: state and exceptions *)

Record session : Type := {
  sent : list request;
  shown : list ui
}.

Definition M (A : Type) : Type := session -> result A * session.

Definition ret {A : Type} (a : A) : M A := fun s => (inr a, s).

Definition raise {A : Type} (e : exn) : M A := fun s => (inl e, s).

Definition bind {A B : Type} (c : M A) (k : A -> M B) : M B :=
  fun s => match c s with
           | (inr a, s') => k a s'
           | (inl e, s') => (inl e, s')
           end.

Notation "x <- c ;; k" := (bind c (fun x => k))
  (at level 61, c at next level, right associativity).
Notation "c ;; k" := (bind c (fun _ => k))
  (at level 61, right associativity).

Definition lift {A : Type} (r : result A) : M A := fun s => (r, s).

(** [try: c except Exception as e: handler e] *)
Definition try_except {A : Type} (c : M A) (handler : exn -> M A) : M A :=
  fun s => match c s with
           | (inr a, s') => (inr a, s')
           | (inl e, s') => handler e s'
           end.

Definition st (u : ui) : M unit :=
  fun s => (inr tt, {| sent := sent s; shown := shown s ++ [u] |}).

(** [with col: c]: what [c] draws lands in column [i]. *)
Definition within_column {A : Type} (i : nat) (c : M A) : M A :=
  fun s => match c {| sent := sent s; shown := [] |} with
           | (r, s') => (r, {| sent := sent s';
                               shown := shown s ++ map (in_column i) (shown s') |})
           end.

Definition fresh : session := {| sent := []; shown := [] |}.

(** ** Configuration *)

Definition LLAMA_TEXT_API_URL : string := "https://api.groq.com/openai/v1/chat/completions".
Definition LLAMA_IMAGE_API_URL : string := "https://api.groq.com/llama3/image".

Section App.

(** The bearer credential read at start-up. *)
Variable API_KEY : string.

(** The remote service behind [requests.post]: given the requests already
    sent and the one being sent, a transport failure or a response. *)
Variable remote : list request -> request -> transport_failure + response.

(** [repr] of floats and containers, which [str] falls back on. *)
Variable py_repr : pyval -> string.

(** [data.describe().to_json()] and [pd.read_csv]. *)
Variable describe_to_json : DataFrame -> result string.
Variable read_csv : UploadedFile -> result DataFrame.

(** [str(v)], what an f-string prints for [{v}]. *)
Definition py_str (v : pyval) : string :=
  match v with
  | PyStr s => s
  | PyNone => "None"
  | PyBool true => "True"
  | PyBool false => "False"
  | PyInt n => str_of_int n
  | _ => py_repr v
  end.

(** [v.startswith(p)]: a method of [str] only. *)
Definition py_startswith (v : pyval) (p : string) : result bool :=
  match v with
  | PyStr s => inr (startswith s p)
  | _ => inl (no_attribute v "startswith")
  end.

Definition requests_post (req : request) : M response :=
  fun s =>
    let s' := {| sent := sent s ++ [req]; shown := shown s |} in
    match remote (sent s) req with
    | inl f => (inl (RequestFailure f), s')
    | inr r => (inr r, s')
    end.

(** *** Helper functions *)

(** The two [except] clauses of the client functions.  The first reads
    [response.text]: the name is bound whenever an [HTTPError] arrives, since
    only [raise_for_status] raises one; so the handlers are laid out around
    the part of the [try] block that follows [requests.post]. *)
Definition except_HTTPError (response : response) (body : M pyval) : M pyval :=
  try_except body
    (fun err =>
       match err with
       | HTTPError _ =>
           ret (PyStr ("HTTP error occurred: " ++ exn_str err ++ " - " ++ text response))
       | _ => raise err
       end).

Definition except_Exception (body : M pyval) : M pyval :=
  try_except body
    (fun err => ret (PyStr ("An error occurred: " ++ exn_str err))).

Definition text_payload (model content : string) (max_tokens : Z) (temperature : float)
  : pyval :=
  PyDict [("model", PyStr model);
          ("messages", PyList [PyDict [("role", PyStr "user"); ("content", PyStr content)]]);
          ("max_tokens", PyInt max_tokens);
          ("temperature", PyFloat temperature)].

Definition get_llama_text_response (text : string) (model : string) : M pyval :=
  let headers := [("Authorization", "Bearer " ++ API_KEY);
                  ("Content-Type", "application/json")] in
  let payload := text_payload model text 150 0.7%float in
  except_Exception
    (response <- requests_post (PostJson LLAMA_TEXT_API_URL payload headers);;
     except_HTTPError response
       (lift (raise_for_status response);;
        body <- lift (response_json response);;
        choices <- lift (py_get body "choices" (PyList [PyDict []]));;
        choice <- lift (py_item0 choices);;
        message <- lift (py_get choice "message" (PyDict []));;
        lift (py_get message "content" (PyStr "No response received.")))).

Definition get_llama_image_response (image_bytes : bytes) (model : string) : M pyval :=
  let headers := [("Authorization", "Bearer " ++ API_KEY)] in
  let files := [("image_file", ("image.png", image_bytes, "image/png"))] in
  except_Exception
    (response <- requests_post (PostFiles LLAMA_IMAGE_API_URL files headers);;
     except_HTTPError response
       (lift (raise_for_status response);;
        body <- lift (response_json response);;
        lift (py_get body "response" (PyStr "No response received.")))).

Definition analyze_network_data (data : DataFrame) (model : string) : M pyval :=
  summary <- lift (describe_to_json data);;
  let headers := [("Authorization", "Bearer " ++ API_KEY);
                  ("Content-Type", "application/json")] in
  let payload :=
    text_payload model
      ("Analyze the following network performance data summary:" ++ String "010" summary)
      200 0.5%float in
  except_Exception
    (response <- requests_post (PostJson LLAMA_TEXT_API_URL payload headers);;
     except_HTTPError response
       (lift (raise_for_status response);;
        body <- lift (response_json response);;
        choices <- lift (py_get body "choices" (PyList [PyDict []]));;
        choice <- lift (py_item0 choices);;
        message <- lift (py_get choice "message" (PyDict []));;
        lift (py_get message "content" (PyStr "No analysis received.")))).

(** The default values of the [model] arguments. *)
Definition text_model : string := "llama-3.2-chat".
Definition image_model : string := "llama-3.2-image".
Definition analysis_model : string := "llama-3.2-analysis".

(** *** Screens

    Input widgets ([text_area], [file_uploader], [button], [selectbox]) are
    the arguments of a screen: what the user typed, uploaded and pressed in
    this render. *)

(** The truth value of a [str]. *)
Definition nonempty (s : string) : bool :=
  match s with EmptyString => false | String _ _ => true end.

Definition home : M unit :=
  st (title "Welcome to ConnectAssist");;
  st (write (PyStr "
    **ConnectAssist** is an AI-powered mobile application designed to empower telecommunications field workers operating in underserved regions. Leveraging Llama 3.2’s lightweight and multimodal capabilities, ConnectAssist provides real-time support, diagnostics, and training to enhance network deployment and maintenance efficiency.
    "));;
  st (image_url "https://via.placeholder.com/800x400.png?text=ConnectAssist+Event+Thumbnail" None).

Definition troubleshooting_assistant (issue_text : string) (get_suggestions : bool)
    (uploaded_image : option UploadedFile) (analyze_image : bool) : M unit :=
  st (header "Real-Time Troubleshooting Assistant");;
  st (subheader "Describe the Issue");;
  (if get_suggestions then
     if nonempty issue_text then
       st (spinner "Processing...");;
       response <- get_llama_text_response issue_text text_model;;
       is_error <- lift (py_startswith response "Error");;
       if is_error : bool then st (error response)
       else st (success "**Diagnostic Suggestions:**");; st (write response)
     else st (warning "Please enter a description of the issue.")
   else ret tt);;
  st (markdown "---");;
  st (subheader "Upload an Image of the Issue");;
  match uploaded_image with
  | Some image =>
      st (image_upload image (Some "Uploaded Image."));;
      if analyze_image then
        st (spinner "Analyzing image...");;
        let image_bytes := read image in
        response <- get_llama_image_response image_bytes image_model;;
        is_error <- lift (py_startswith response "Error");;
        if is_error : bool then st (error response)
        else st (success "**Image Analysis:**");; st (write response)
      else ret tt
  | None => ret tt
  end.

Definition training_modules (watch_tutorial : bool) : M unit :=
  st (header "Dynamic Training Modules");;
  st (subheader "Interactive Tutorials");;
  st (markdown "
    - **Module 1:** Setting Up Network Equipment
    - **Module 2:** Troubleshooting Common Issues
    - **Module 3:** Optimizing Network Performance
    ");;
  (if watch_tutorial then st (video "https://www.youtube.com/watch?v=dQw4w9WgXcQ")
   else ret tt);;
  st (markdown "---");;
  st (subheader "Augmented Reality Guides");;
  st (markdown "
    While AR integration is beyond the scope of this prototype, here's a simulated guide:
    ");;
  st (image_url "https://via.placeholder.com/800x400.png?text=Simulated+AR+Guide"
                (Some "Simulated AR Guide")).

Definition network_insights (uploaded_file : option UploadedFile) (analyze_data : bool)
  : M unit :=
  st (header "Network Optimization Insights");;
  st (subheader "Upload Network Performance Data");;
  match uploaded_file with
  | Some file =>
      try_except
        (data <- lift (read_csv file);;
         st (write (PyStr "**Data Preview:**"));;
         st (dataframe (head data));;
         st (subheader "Performance Metrics");;
         within_column 1
           (if has_column "signal_strength" data then
              series <- lift (getitem data "signal_strength");;
              st (line_chart series)
            else st (write (PyStr "**signal_strength** column not found.")));;
         within_column 2
           (if has_column "bandwidth_usage" data then
              series <- lift (getitem data "bandwidth_usage");;
              st (bar_chart series)
            else st (write (PyStr "**bandwidth_usage** column not found.")));;
         if analyze_data then
           st (spinner "Analyzing data...");;
           analysis <- analyze_network_data data analysis_model;;
           is_error <- lift (py_startswith analysis "Error");;
           if is_error : bool then st (error analysis)
           else st (success "**Analysis Results:**");; st (write analysis)
         else ret tt)
        (fun e => st (error (PyStr ("Error processing the file: " ++ exn_str e))))
  | None => ret tt
  end.

Definition connectivity_solutions (report_text : string)
    (uploaded_image : option UploadedFile) (generate : bool) : M unit :=
  st (header "Localized Connectivity Solutions");;
  st (subheader "User Reports");;
  st (subheader "Site Photos");;
  if generate then
    (* [report_text and uploaded_image] *)
    match (if nonempty report_text then uploaded_image else None) with
    | Some image =>
        st (spinner "Generating recommendations...");;
        text_response <- get_llama_text_response report_text text_model;;
        let image_bytes := read image in
        image_response <- get_llama_image_response image_bytes image_model;;
        let combined_recommendation :=
          py_str text_response ++ String "010" (String "010" (py_str image_response)) in
        if startswith combined_recommendation "Error"
        then st (error (PyStr combined_recommendation))
        else st (success "**Recommendations:**");;
             st (write (PyStr combined_recommendation))
    | None => st (warning "Please provide both user reports and site photos.")
    end
  else ret tt.

(** *** The shell *)

Inductive app_mode : Type :=
| Home | Troubleshooting | Training | NetworkInsights | ConnectivitySolutions.

(** What the user has entered on the page in this render. *)
Record inputs : Type := {
  mode : app_mode;
  issue_text : string;
  get_suggestions : bool;
  issue_image : option UploadedFile;
  analyze_image : bool;
  watch_tutorial : bool;
  csv_file : option UploadedFile;
  analyze_data : bool;
  report_text : string;
  site_photo : option UploadedFile;
  generate_recommendations : bool
}.

Definition main (i : inputs) : M unit :=
  st (set_page_config "ConnectAssist" "wide");;
  st (sidebar_title "ConnectAssist");;
  match mode i with
  | Home => home
  | Troubleshooting =>
      troubleshooting_assistant (issue_text i) (get_suggestions i)
                                (issue_image i) (analyze_image i)
  | Training => training_modules (watch_tutorial i)
  | NetworkInsights => network_insights (csv_file i) (analyze_data i)
  | ConnectivitySolutions =>
      connectivity_solutions (report_text i) (site_photo i) (generate_recommendations i)
  end.

End App.

(** *** Start-up *)

(** How a run of the script ends: [st.stop()], the end of the script, or an
    exception nobody caught. *)
Inductive exit : Type :=
| Stopped
| Completed
| Uncaught (e : exn).

Definition finish (run : result unit * session) : exit * session :=
  match run with
  | (inr _, s) => (Completed, s)
  | (inl e, s) => (Uncaught e, s)
  end.

Section Script.

Variable remote : list request -> request -> transport_failure + response.
Variable py_repr : pyval -> string.
Variable describe_to_json : DataFrame -> result string.
Variable read_csv : UploadedFile -> result DataFrame.

(** [not API_KEY]: [None] and the empty string are both false. *)
Definition credential (GROQ_API_KEY : option string) : option string :=
  match GROQ_API_KEY with
  | Some key => if nonempty key then Some key else None
  | None => None
  end.

(** The module body: read the credential, stop without it, else [main()].
    [GROQ_API_KEY] is what [os.getenv] returns after [load_dotenv()]. *)
Definition script (GROQ_API_KEY : option string) (i : inputs) : exit * session :=
  match credential GROQ_API_KEY with
  | None =>
      (Stopped,
       snd (st (error (PyStr
         "API Key not found. Please set the GROQ_API_KEY environment variable.")) fresh))
  | Some API_KEY =>
      finish (main API_KEY remote py_repr describe_to_json read_csv i fresh)
  end.

End Script.

(** ** Reading the code's outcome off the remote outcome *)

(** The walk [.get("choices", [{}])[0].get("message", {}).get("content", fallback)]. *)
Definition choice_content (fallback : string) (body : pyval) : result pyval :=
  match py_get body "choices" (PyList [PyDict []]) with
  | inl e => inl e
  | inr choices =>
      match py_item0 choices with
      | inl e => inl e
      | inr choice =>
          match py_get choice "message" (PyDict []) with
          | inl e => inl e
          | inr message => py_get message "content" (PyStr fallback)
          end
      end
  end.

(** [.get("response", fallback)] *)
Definition response_field (fallback : string) (body : pyval) : result pyval :=
  py_get body "response" (PyStr fallback).

(** What the part of a [try] block after [requests.post] evaluates to. *)
Definition parsed (extract : pyval -> result pyval) (r : response) : result pyval :=
  match raise_for_status r with
  | inl e => inl e
  | inr _ =>
      match response_json r with
      | inl e => inl e
      | inr body => extract body
      end
  end.

(** What the whole [try] block evaluates to. *)
Definition attempt (extract : pyval -> result pyval)
    (o : transport_failure + response) : result pyval :=
  match o with
  | inl f => inl (RequestFailure f)
  | inr r => parsed extract r
  end.


Definition is_HTTPError (e : exn) : bool :=
  match e with HTTPError _ => true | _ => false end.

(** The statuses on which [raise_for_status] raises, and its message. *)
Definition error_status (r : response) : bool :=
  (400 <=? status_code r) && (status_code r <? 600).

Definition http_error_msg (r : response) : string :=
  str_of_int (status_code r)
  ++ (if status_code r <? 500 then " Client Error: " else " Server Error: ")
  ++ reason r ++ " for url: " ++ url r.

(** The value a client function returns, by cases on what the remote did. *)
Definition reply (extract : pyval -> result pyval)
    (o : transport_failure + response) : pyval :=
  match o with
  | inl f => PyStr ("An error occurred: " ++ failure_message f)
  | inr r =>
      if error_status r then
        PyStr ("HTTP error occurred: " ++ http_error_msg r ++ " - " ++ text r)
      else
        match json_body r with
        | inl msg => PyStr ("An error occurred: " ++ msg)
        | inr body =>
            match extract body with
            | inl e => PyStr ("An error occurred: " ++ exn_str e)
            | inr v => v
            end
        end
  end.

Definition log (req : request) (s : session) : session :=
  {| sent := sent s ++ [req]; shown := shown s |}.

Definition draw (us : list ui) (s : session) : session :=
  {| sent := sent s; shown := shown s ++ us |}.

Definition text_request (API_KEY model content : string) (max_tokens : Z)
    (temperature : float) : request :=
  PostJson LLAMA_TEXT_API_URL
    (text_payload model content max_tokens temperature)
    [("Authorization", "Bearer " ++ API_KEY); ("Content-Type", "application/json")].

Definition image_request (API_KEY : string) (image_bytes : bytes) : request :=
  PostFiles LLAMA_IMAGE_API_URL
    [("image_file", ("image.png", image_bytes, "image/png"))]
    [("Authorization", "Bearer " ++ API_KEY)].

Definition analysis_prompt (summary : string) : string :=
  "Analyze the following network performance data summary:" ++ String "010" summary.

(** The text-submission operation with its parameter set spelled out: one
    chat request with one user message, answered by [reply]. *)
Definition submit_text (API_KEY : string)
    (remote : list request -> request -> transport_failure + response)
    (prompt model : string) (max_tokens : Z) (temperature : float)
    (fallback : string) : M pyval :=
  fun s =>
    let req := text_request API_KEY model prompt max_tokens temperature in
    (inr (reply (choice_content fallback) (remote (sent s) req)), log req s).

(** The field [choices[0].message.content] of a decoded body, when the body
    has one. *)
Definition content_field (body : pyval) : option pyval :=
  match body with
  | PyDict top =>
      match lookup "choices" top with
      | Some (PyList (PyDict choice :: _)) =>
          match lookup "message" choice with
          | Some (PyDict message) => lookup "content" message
          | _ => None
          end
      | _ => None
      end
  | _ => None
  end.

(** The bodies on which the walk falls back: a key of the path is missing
    from the object that should hold it. *)
Inductive key_missing : pyval -> Prop :=
| no_choices top :
    lookup "choices" top = None -> key_missing (PyDict top)
| no_message top choice rest :
    lookup "choices" top = Some (PyList (PyDict choice :: rest)) ->
    lookup "message" choice = None ->
    key_missing (PyDict top)
| no_content top choice rest message :
    lookup "choices" top = Some (PyList (PyDict choice :: rest)) ->
    lookup "message" choice = Some (PyDict message) ->
    lookup "content" message = None ->
    key_missing (PyDict top).



Definition is_error_box (u : ui) : bool :=
  match u with error _ => true | _ => false end.


Definition generic_error_string (v : pyval) : Prop :=
  exists s, v = PyStr s /\ startswith s "An error occurred" = true.


(** ** Vocabulary for the properties of whole renders *)

(** The string returned for a response that [raise_for_status] rejects;
    [kind] is the error class named in the message. *)
Definition status_line (kind : string) (r : response) : string :=
  "HTTP error occurred: " ++ str_of_int (status_code r) ++ kind ++ reason r
  ++ " for url: " ++ url r ++ " - " ++ text r.

Definition is_str (v : pyval) : bool :=
  match v with PyStr _ => true | _ => false end.

(** A request to one of the two endpoints, in the shape the endpoint takes,
    carrying the bearer credential. *)
Definition authorised (API_KEY : string) (req : request) : Prop :=
  match req with
  | PostJson u _ headers =>
      u = LLAMA_TEXT_API_URL
      /\ lookup "Authorization" headers = Some ("Bearer " ++ API_KEY)
  | PostFiles u _ headers =>
      u = LLAMA_IMAGE_API_URL
      /\ lookup "Authorization" headers = Some ("Bearer " ++ API_KEY)
  end.

(** [s'] continues [s]: the history and the page only grow, by at most [n]
    requests, each of them authorised. *)
Definition extends_by (n : nat) (API_KEY : string) (s s' : session) : Prop :=
  exists new drawn,
    sent s' = (sent s ++ new)%list /\ shown s' = (shown s ++ drawn)%list
    /\ (List.length new <= n)%nat /\ Forall (authorised API_KEY) new.

Definition sends {A : Type} (n : nat) (API_KEY : string) (c : M A) : Prop :=
  forall s, extends_by n API_KEY s (snd (c s)).





(** ** Sample remotes and uploads *)

Module Sample.

Definition serve (r : response) : list request -> request -> transport_failure + response :=
  fun _ _ => inr r.

(** One answer for the chat endpoint, one for the image endpoint. *)
Definition route (chat image : response)
  : list request -> request -> transport_failure + response :=
  fun _ req =>
    match req with
    | PostJson _ _ _ => inr chat
    | PostFiles _ _ _ => inr image
    end.

Definition down (f : transport_failure) : list request -> request -> transport_failure + response :=
  fun _ _ => inl f.

Definition q : string := String "034" EmptyString.

Definition ok (body_text : string) (body : pyval) : response :=
  {| status_code := 200; reason := "OK"; url := LLAMA_TEXT_API_URL;
     text := body_text; json_body := inr body |}.

(** [{"choices": [{"message": {"content": "Check the feeder cable."}}]}] *)
Definition answer : response :=
  ok ("{" ++ q ++ "choices" ++ q ++ ": [{" ++ q ++ "message" ++ q ++ ": {" ++ q ++ "content"
      ++ q ++ ": " ++ q ++ "Check the feeder cable." ++ q ++ "}}]}")
     (PyDict [("choices",
               PyList [PyDict [("message",
                                PyDict [("content", PyStr "Check the feeder cable.")])]])]).

(** [{"choices": []}] *)
Definition empty_choices : response :=
  ok ("{" ++ q ++ "choices" ++ q ++ ": []}") (PyDict [("choices", PyList [])]).

(** [{"choices": [{"message": {"content": null}}]}] *)
Definition null_content : response :=
  ok ("{" ++ q ++ "choices" ++ q ++ ": [{" ++ q ++ "message" ++ q ++ ": {" ++ q ++ "content"
      ++ q ++ ": null}}]}")
     (PyDict [("choices", PyList [PyDict [("message", PyDict [("content", PyNone)])]])]).

(** [{}] *)
Definition empty_object : response := ok "{}" (PyDict []).

(** [{"response": "Loose connector."}] *)
Definition image_answer : response :=
  {| status_code := 200; reason := "OK"; url := LLAMA_IMAGE_API_URL;
     text := "{" ++ q ++ "response" ++ q ++ ": " ++ q ++ "Loose connector." ++ q ++ "}";
     json_body := inr (PyDict [("response", PyStr "Loose connector.")]) |}.


Definition server_error : response :=
  {| status_code := 500; reason := "Internal Server Error"; url := LLAMA_TEXT_API_URL;
     text := "upstream unavailable"; json_body := inl "Expecting value: line 1 column 1 (char 0)" |}.

Definition not_json : response :=
  {| status_code := 200; reason := "OK"; url := LLAMA_TEXT_API_URL;
     text := "<html>"; json_body := inl "Expecting value: line 1 column 1 (char 0)" |}.

Definition timed_out : transport_failure :=
  {| failure_class := "ConnectTimeout"; failure_message := "connection timed out" |}.

Definition photo : UploadedFile :=
  {| file_name := "mast.png"; file_bytes := [Byte.x89; Byte.x50; Byte.x4e; Byte.x47] |}.

Definition log_csv : UploadedFile :=
  {| file_name := "log.csv"; file_bytes := [] |}.

Definition both_columns : DataFrame :=
  [("signal_strength", [PyInt (-70); PyInt (-82)]); ("bandwidth_usage", [PyInt 12; PyInt 40])].


Definition summarise : DataFrame -> result string := fun _ => inr "{}".

Definition parse : UploadedFile -> result DataFrame := fun _ => inr both_columns.

(** A stand-in display of floats and containers for the sample renders. *)
Definition show (v : pyval) : string := "<" ++ type_name v ++ ">".

(** The Troubleshooting page with a question typed and its button pressed. *)
Definition ask (question : string) : inputs :=
  {| mode := Troubleshooting; issue_text := question; get_suggestions := true;
     issue_image := None; analyze_image := false; watch_tutorial := false;
     csv_file := None; analyze_data := false; report_text := ""; site_photo := None;
     generate_recommendations := false |}.

(** [[]] *)
Definition array_body : response := ok "[]" (PyList []).

(** A 404 whose body is nevertheless a well-formed answer. *)
Definition not_found : response :=
  {| status_code := 404; reason := "Not Found"; url := LLAMA_TEXT_API_URL;
     text := text answer; json_body := json_body answer |}.

(** [{"choices": [{"message": {"content": "Error 12 on the feeder: reseat it."}}]}] *)
Definition answer_beginning_with_error : response :=
  ok ("{" ++ q ++ "choices" ++ q ++ ": [{" ++ q ++ "message" ++ q ++ ": {" ++ q ++ "content"
      ++ q ++ ": " ++ q ++ "Error 12 on the feeder: reseat it." ++ q ++ "}}]}")
     (PyDict [("choices",
               PyList [PyDict [("message",
                                PyDict [("content",
                                         PyStr "Error 12 on the feeder: reseat it.")])]])]).

Definition reject : UploadedFile -> result DataFrame :=
  fun _ => inl (ValueError "No columns to parse from file").

Definition no_summary : DataFrame -> result string :=
  fun _ => inl (ValueError "Cannot describe a DataFrame without columns").


End Sample.

(** * Properties *)

(** ** The walk through the decoded body never raises an [HTTPError] *)

Lemma py_get_raises v key default e :
  py_get v key default = inl e -> is_HTTPError e = false.
Proof. destruct v; simpl; intros H; inversion H; reflexivity. Qed.

Lemma py_item0_raises v e : py_item0 v = inl e -> is_HTTPError e = false.
Proof.
  destruct v as [| | | |s|items|]; simpl; try (intros H; inversion H; reflexivity).
  - destruct s; intros H; inversion H; reflexivity.
  - destruct items; intros H; inversion H; reflexivity.
Qed.

Lemma choice_content_raises fallback body e :
  choice_content fallback body = inl e -> is_HTTPError e = false.
Proof.
  unfold choice_content.
  destruct (py_get body _ _) as [e1|choices] eqn:H1.
  { intros H; inversion H; subst. eapply py_get_raises; eassumption. }
  destruct (py_item0 choices) as [e2|choice] eqn:H2.
  { intros H; inversion H; subst. eapply py_item0_raises; eassumption. }
  destruct (py_get choice _ _) as [e3|message] eqn:H3.
  { intros H; inversion H; subst. eapply py_get_raises; eassumption. }
  apply py_get_raises.
Qed.

Lemma response_field_raises fallback body e :
  response_field fallback body = inl e -> is_HTTPError e = false.
Proof. apply py_get_raises. Qed.

(** ** [raise_for_status] *)

Lemma raise_for_status_cases r :
  raise_for_status r
  = if error_status r then inl (HTTPError (http_error_msg r)) else inr tt.
Proof.
  unfold raise_for_status, error_status, http_error_msg.
  destruct (400 <=? status_code r) eqn:H4, (status_code r <? 500) eqn:H5,
           (500 <=? status_code r) eqn:H5', (status_code r <? 600) eqn:H6;
    simpl; try reflexivity; lia.
Qed.

Lemma is_2xx_no_error r : is_2xx r -> error_status r = false.
Proof. unfold is_2xx, error_status. intros H. destruct (400 <=? status_code r) eqn:E; simpl; [lia | reflexivity]. Qed.

(** ** The client functions, by cases on the remote outcome *)

Lemma lift_bind {A B : Type} (a : result A) (k : A -> M B) (s : session) :
  bind (lift a) k s = match a with inl e => (inl e, s) | inr x => k x s end.
Proof. unfold bind, lift. destruct a; reflexivity. Qed.

Lemma handled (extract : pyval -> result pyval) (req : request)
    (remote : list request -> request -> transport_failure + response)
    (rest : response -> M pyval) (s : session) :
  (forall body e, extract body = inl e -> is_HTTPError e = false) ->
  (forall r s', rest r s' = (parsed extract r, s')) ->
  except_Exception
    (bind (requests_post remote req) (fun r => except_HTTPError r (rest r))) s
  = (inr (reply extract (remote (sent s) req)), log req s).
Proof.
  intros Hx Hrest.
  unfold except_Exception, except_HTTPError, try_except, bind, requests_post, reply.
  fold (log req s).
  destruct (remote (sent s) req) as [f|r]; [reflexivity|].
  rewrite Hrest. unfold parsed, response_json. rewrite raise_for_status_cases.
  destruct (error_status r); [reflexivity|].
  destruct (json_body r) as [msg|body]; [reflexivity|].
  destruct (extract body) as [e|v] eqn:He; [|reflexivity].
  apply Hx in He. destruct e; try reflexivity. discriminate.
Qed.

Section Clients.

Variable API_KEY : string.
Variable remote : list request -> request -> transport_failure + response.
Variable describe_to_json : DataFrame -> result string.

Lemma text_client text model s :
  get_llama_text_response API_KEY remote text model s
  = (inr (reply (choice_content "No response received.")
                (remote (sent s) (text_request API_KEY model text 150 0.7%float))),
     log (text_request API_KEY model text 150 0.7%float) s).
Proof.
  unfold get_llama_text_response, text_request.
  apply handled; [apply choice_content_raises|].
  intros r s'. unfold parsed, choice_content.
  repeat (rewrite lift_bind;
          match goal with |- context [match ?a with inl _ => _ | inr _ => _ end] =>
            destruct a; try reflexivity end).
Qed.

Lemma image_client image_bytes model s :
  get_llama_image_response API_KEY remote image_bytes model s
  = (inr (reply (response_field "No response received.")
                (remote (sent s) (image_request API_KEY image_bytes))),
     log (image_request API_KEY image_bytes) s).
Proof.
  unfold get_llama_image_response, image_request.
  apply handled; [apply response_field_raises|].
  intros r s'. unfold parsed, response_field.
  repeat (rewrite lift_bind;
          match goal with |- context [match ?a with inl _ => _ | inr _ => _ end] =>
            destruct a; try reflexivity end).
Qed.

Lemma analysis_client data model summary s :
  describe_to_json data = inr summary ->
  analyze_network_data API_KEY remote describe_to_json data model s
  = (inr (reply (choice_content "No analysis received.")
                (remote (sent s)
                   (text_request API_KEY model (analysis_prompt summary) 200 0.5%float))),
     log (text_request API_KEY model (analysis_prompt summary) 200 0.5%float) s).
Proof.
  intros Hd. unfold analyze_network_data. rewrite lift_bind, Hd.
  unfold text_request, analysis_prompt.
  apply handled; [apply choice_content_raises|].
  intros r s'. unfold parsed, choice_content.
  repeat (rewrite lift_bind;
          match goal with |- context [match ?a with inl _ => _ | inr _ => _ end] =>
            destruct a; try reflexivity end).
Qed.

Lemma analysis_client_raises data model e s :
  describe_to_json data = inl e ->
  analyze_network_data API_KEY remote describe_to_json data model s = (inl e, s).
Proof. intros Hd. unfold analyze_network_data. rewrite lift_bind, Hd. reflexivity. Qed.

End Clients.

(** ** The walk, on bodies that have the field and on bodies that miss a key *)

Lemma content_field_walk fallback body c :
  content_field body = Some c -> choice_content fallback body = inr c.
Proof.
  destruct body as [| | | | |?|top]; simpl; try discriminate.
  unfold choice_content, py_get.
  destruct (lookup "choices" top) as [[| | | | |[|[| | | | | |choice] rest]|]|];
    simpl; try discriminate.
  destruct (lookup "message" choice) as [[| | | | | |message]|]; simpl; try discriminate.
  intros ->. reflexivity.
Qed.

Lemma key_missing_walk fallback body :
  key_missing body -> choice_content fallback body = inr (PyStr fallback).
Proof.
  intros [top H | top choice rest H1 H2 | top choice rest message H1 H2 H3];
    unfold choice_content, py_get; rewrite ?H, ?H1; simpl;
    rewrite ?H2; simpl; rewrite ?H3; reflexivity.
Qed.

Lemma key_missing_no_field body : key_missing body -> content_field body = None.
Proof.
  intros [top H | top choice rest H1 H2 | top choice rest message H1 H2 H3];
    simpl; rewrite ?H, ?H1, ?H2; auto.
Qed.

Section TextSubmission.

Variable API_KEY : string.
Variable remote : list request -> request -> transport_failure + response.

(** C7.  A 2xx response whose decoded body has a string at
    [choices[0].message.content]: [get_llama_text_response] returns that
    string and nothing else. *)
Theorem text_returns_content (text model : string) (s : session)
    (r : response) (body : pyval) (content : string) :
  remote (sent s) (text_request API_KEY model text 150 0.7%float) = inr r ->
  is_2xx r ->
  json_body r = inr body ->
  content_field body = Some (PyStr content) ->
  fst (get_llama_text_response API_KEY remote text model s) = inr (PyStr content).
Proof.
  intros Hr H2 Hj Hc. rewrite text_client, Hr. simpl.
  rewrite (is_2xx_no_error _ H2), Hj.
  rewrite (content_field_walk _ _ _ Hc). reflexivity.
Qed.

(** C3, as the code has it.  A 2xx response whose decoded body is an object
    without ["choices"], or whose first choice is an object without
    ["message"], or whose message is an object without ["content"]:
    [get_llama_text_response] returns ["No response received."]. *)
Theorem text_falls_back_on_missing_key (text model : string) (s : session)
    (r : response) (body : pyval) :
  remote (sent s) (text_request API_KEY model text 150 0.7%float) = inr r ->
  is_2xx r ->
  json_body r = inr body ->
  key_missing body ->
  fst (get_llama_text_response API_KEY remote text model s)
  = inr (PyStr "No response received.").
Proof.
  intros Hr H2 Hj Hm. rewrite text_client, Hr. simpl.
  rewrite (is_2xx_no_error _ H2), Hj.
  rewrite (key_missing_walk _ _ Hm). reflexivity.
Qed.

End TextSubmission.

Lemma text_returns_content_witness :
  fst (get_llama_text_response "k" (Sample.serve Sample.answer)
         "signal drops every evening" text_model fresh)
  = inr (PyStr "Check the feeder cable.").
Proof.
  apply (text_returns_content "k" (Sample.serve Sample.answer)
           "signal drops every evening" text_model fresh Sample.answer
           (PyDict [("choices",
               PyList [PyDict [("message",
                                PyDict [("content", PyStr "Check the feeder cable.")])]])])).
  - reflexivity.
  - unfold is_2xx; simpl; lia.
  - reflexivity.
  - reflexivity.
Defined.

Lemma text_falls_back_on_missing_key_witness :
  fst (get_llama_text_response "k" (Sample.serve Sample.empty_object)
         "signal drops every evening" text_model fresh)
  = inr (PyStr "No response received.").
Proof.
  apply (text_falls_back_on_missing_key "k" (Sample.serve Sample.empty_object)
           "signal drops every evening" text_model fresh Sample.empty_object (PyDict [])).
  - reflexivity.
  - unfold is_2xx; simpl; lia.
  - reflexivity.
  - apply no_choices. reflexivity.
Defined.

(** C3, as stated, fails on an empty ["choices"] list: the body has no
    [choices[0].message.content], the status is 2xx, and the call returns the
    text of the [IndexError] instead of the fallback. *)
Lemma empty_choices_is_not_fallback :
  is_2xx Sample.empty_choices
  /\ json_body Sample.empty_choices = inr (PyDict [("choices", PyList [])])
  /\ content_field (PyDict [("choices", PyList [])]) = None
  /\ fst (get_llama_text_response "k" (Sample.serve Sample.empty_choices)
            "signal drops every evening" text_model fresh)
     = inr (PyStr "An error occurred: list index out of range")
  /\ fst (get_llama_text_response "k" (Sample.serve Sample.empty_choices)
            "signal drops every evening" text_model fresh)
     <> inr (PyStr "No response received.").
Proof.
  repeat split; try reflexivity; try (simpl; lia).
  discriminate.
Qed.

(** ** Failed HTTP statuses *)

Lemma append_assoc (a b c : string) : (a ++ b) ++ c = a ++ b ++ c.
Proof. induction a as [|x a IH]; simpl; [reflexivity | now rewrite IH]. Qed.


Section HttpErrors.

Variable API_KEY : string.
Variable remote : list request -> request -> transport_failure + response.
Variable describe_to_json : DataFrame -> result string.


End HttpErrors.



(** ** Exceptions inside the [try] block *)

Lemma reply_attempt extract o :
  (forall body e, extract body = inl e -> is_HTTPError e = false) ->
  reply extract o
  = match attempt extract o with
    | inr v => v
    | inl (HTTPError msg) =>
        PyStr ("HTTP error occurred: " ++ msg ++ " - "
               ++ match o with inr r => text r | inl _ => EmptyString end)
    | inl e => PyStr ("An error occurred: " ++ exn_str e)
    end.
Proof.
  intros Hx. destruct o as [f|r]; simpl; [reflexivity|].
  unfold parsed, response_json. rewrite raise_for_status_cases.
  destruct (error_status r); [reflexivity|].
  destruct (json_body r) as [msg|body]; [reflexivity|].
  destruct (extract body) as [e|v] eqn:He; [|reflexivity].
  apply Hx in He. destruct e; try reflexivity. discriminate.
Qed.

Lemma reply_generic extract o e :
  (forall body e', extract body = inl e' -> is_HTTPError e' = false) ->
  attempt extract o = inl e -> is_HTTPError e = false ->
  reply extract o = PyStr ("An error occurred: " ++ exn_str e)
  /\ generic_error_string (reply extract o).
Proof.
  intros Hx Ha He. rewrite (reply_attempt _ _ Hx), Ha.
  destruct e; try discriminate; (split; [reflexivity | eexists; split; reflexivity]).
Qed.

Lemma choice_content_value fallback body v :
  choice_content fallback body = inr v ->
  v = PyStr fallback \/ content_field body = Some v.
Proof.
  destruct body as [| | | | |?|top]; simpl; try discriminate.
  unfold choice_content, py_get.
  destruct (lookup "choices" top) as [[| | |?|[|? ?]|[|[| | |?|?|?|choice] rest]|]|];
    simpl; try discriminate.
  - destruct (lookup "message" choice) as [[| | |?|?|?|message]|]; simpl; try discriminate.
    + destruct (lookup "content" message); intros H; inversion H; auto.
    + intros H; inversion H; auto.
  - intros H; inversion H; auto.
Qed.

Lemma response_field_value fallback body v :
  response_field fallback body = inr v ->
  v = PyStr fallback \/ exists top, body = PyDict top /\ lookup "response" top = Some v.
Proof.
  destruct body as [| | | | |?|top]; simpl; try discriminate.
  destruct (lookup "response" top) eqn:H; intros E; inversion E; subst; eauto.
Qed.

Lemma reply_value extract o v :
  reply extract o = v ->
  (exists str, v = PyStr str)
  \/ (exists r body, o = inr r /\ json_body r = inr body /\ extract body = inr v).
Proof.
  intros <-. destruct o as [f|r]; simpl; [eauto|].
  destruct (error_status r); [eauto|].
  destruct (json_body r) as [msg|body] eqn:Hj; [eauto|].
  destruct (extract body) as [e|v] eqn:He; [eauto|].
  right. exists r, body. auto.
Qed.

Section Exceptions.

Variable API_KEY : string.
Variable remote : list request -> request -> transport_failure + response.
Variable describe_to_json : DataFrame -> result string.

(** C6, as the code has it.  When the [try] block of a client function
    raises anything but an [HTTPError] (the transport failed, the body did
    not decode, the walk through the decoded body hit a wrong shape), the
    function returns ["An error occurred: "] followed by the text of the
    exception; the tabular analysis does so once its summary is computed.
    [get_llama_text_response] and [get_llama_image_response] never raise;
    what they return is a string, or else the value that the decoded body
    holds in the field they read, handed over as it is. *)
Theorem exceptions_become_strings :
  (forall prompt model s e,
      attempt (choice_content "No response received.")
        (remote (sent s) (text_request API_KEY model prompt 150 0.7%float)) = inl e ->
      is_HTTPError e = false ->
      fst (get_llama_text_response API_KEY remote prompt model s)
      = inr (PyStr ("An error occurred: " ++ exn_str e)))
  /\ (forall image_bytes model s e,
      attempt (response_field "No response received.")
        (remote (sent s) (image_request API_KEY image_bytes)) = inl e ->
      is_HTTPError e = false ->
      fst (get_llama_image_response API_KEY remote image_bytes model s)
      = inr (PyStr ("An error occurred: " ++ exn_str e)))
  /\ (forall data model summary s e,
      describe_to_json data = inr summary ->
      attempt (choice_content "No analysis received.")
        (remote (sent s)
           (text_request API_KEY model (analysis_prompt summary) 200 0.5%float)) = inl e ->
      is_HTTPError e = false ->
      fst (analyze_network_data API_KEY remote describe_to_json data model s)
      = inr (PyStr ("An error occurred: " ++ exn_str e)))
  /\ (forall prompt model s,
      exists v,
        fst (get_llama_text_response API_KEY remote prompt model s) = inr v
        /\ ((exists str, v = PyStr str)
            \/ exists r body,
                remote (sent s) (text_request API_KEY model prompt 150 0.7%float) = inr r
                /\ json_body r = inr body /\ content_field body = Some v))
  /\ (forall image_bytes model s,
      exists v,
        fst (get_llama_image_response API_KEY remote image_bytes model s) = inr v
        /\ ((exists str, v = PyStr str)
            \/ exists r top,
                remote (sent s) (image_request API_KEY image_bytes) = inr r
                /\ json_body r = inr (PyDict top) /\ lookup "response" top = Some v)).
Proof.
  split; [|split; [|split; [|split]]].
  - intros prompt model s e Ha He. rewrite text_client. cbn [fst]. f_equal.
    apply (reply_generic _ _ _ (choice_content_raises _) Ha He).
  - intros image_bytes model s e Ha He. rewrite image_client. cbn [fst]. f_equal.
    apply (reply_generic _ _ _ (response_field_raises _) Ha He).
  - intros data model summary s e Hd Ha He.
    rewrite (analysis_client _ _ _ _ _ _ _ Hd). cbn [fst]. f_equal.
    apply (reply_generic _ _ _ (choice_content_raises _) Ha He).
  - intros prompt model s. rewrite text_client. cbn [fst]. eexists. split; [reflexivity|].
    match goal with |- context [reply ?x ?o] =>
      destruct (reply_value x o _ eq_refl) as [Hs | (r & body & Hr & Hj & Hx)] end;
      [left; exact Hs|].
    destruct (choice_content_value _ _ _ Hx) as [-> | Hc]; [left; eauto|].
    right. exists r, body. auto.
  - intros image_bytes model s. rewrite image_client. cbn [fst]. eexists. split; [reflexivity|].
    match goal with |- context [reply ?x ?o] =>
      destruct (reply_value x o _ eq_refl) as [Hs | (r & body & Hr & Hj & Hx)] end;
      [left; exact Hs|].
    destruct (response_field_value _ _ _ Hx) as [-> | (top & -> & Hl)]; [left; eauto|].
    right. exists r, top. auto.
Qed.

End Exceptions.

Lemma exceptions_become_strings_witness :
  fst (get_llama_text_response "k" (Sample.down Sample.timed_out)
         "signal drops every evening" text_model fresh)
  = inr (PyStr "An error occurred: connection timed out")
  /\ fst (get_llama_image_response "k" (Sample.serve Sample.not_json)
            (read Sample.photo) image_model fresh)
     = inr (PyStr "An error occurred: Expecting value: line 1 column 1 (char 0)")
  /\ fst (analyze_network_data "k" (Sample.serve Sample.empty_choices) Sample.summarise
            Sample.both_columns analysis_model fresh)
     = inr (PyStr "An error occurred: list index out of range").
Proof.
  pose proof (exceptions_become_strings "k" (Sample.down Sample.timed_out) Sample.summarise)
    as (Htext & _).
  pose proof (exceptions_become_strings "k" (Sample.serve Sample.not_json) Sample.summarise)
    as (_ & Himage & _).
  pose proof (exceptions_become_strings "k" (Sample.serve Sample.empty_choices)
                Sample.summarise) as (_ & _ & Hdata & _).
  split; [|split].
  - exact (Htext "signal drops every evening" text_model fresh
             (RequestFailure Sample.timed_out) eq_refl eq_refl).
  - exact (Himage (read Sample.photo) image_model fresh
             (JSONDecodeError "Expecting value: line 1 column 1 (char 0)") eq_refl eq_refl).
  - exact (Hdata Sample.both_columns analysis_model "{}" fresh
             (IndexError "list index out of range") eq_refl eq_refl eq_refl).
Defined.

(** C6, as stated, fails on a 2xx answer whose content is [null]: the call
    hands [None] to the screen, which is no string, and the Troubleshooting
    screen then raises on [response.startswith]. *)
Lemma null_content_is_not_a_string :
  is_2xx Sample.null_content
  /\ fst (get_llama_text_response "k" (Sample.serve Sample.null_content)
            "signal drops every evening" text_model fresh)
     = inr PyNone
  /\ (forall str, PyNone <> PyStr str)
  /\ fst (script (Sample.serve Sample.null_content) Sample.show Sample.summarise
            Sample.parse (Some "k") (Sample.ask "signal drops every evening"))
     = Uncaught (AttributeError "'NoneType' object has no attribute 'startswith'").
Proof.
  split; [unfold is_2xx; simpl; lia|].
  split; [reflexivity|]. split; [discriminate|]. reflexivity.
Qed.

(** ** Running a render step by step *)

Lemma bind_assoc {A B C : Type} (c : M A) (k : A -> M B) (k' : B -> M C) (s : session) :
  bind (bind c k) k' s = bind c (fun a => bind (k a) k') s.
Proof. unfold bind. destruct (c s) as [[e|a] s']; reflexivity. Qed.

Lemma bind_st {B : Type} (u : ui) (k : unit -> M B) (s : session) :
  bind (st u) k s = k tt (draw [u] s).
Proof. reflexivity. Qed.

Lemma bind_ret {A B : Type} (a : A) (k : A -> M B) (s : session) :
  bind (ret a) k s = k a s.
Proof. reflexivity. Qed.

Lemma st_draw (u : ui) (s : session) : st u s = (inr tt, draw [u] s).
Proof. reflexivity. Qed.

Lemma draw_draw us vs s : draw us (draw vs s) = draw (vs ++ us) s.
Proof. unfold draw; simpl. now rewrite app_assoc. Qed.

Lemma bind_run {A B : Type} (c : M A) (k : A -> M B) (s s' : session) (a : A) :
  c s = (inr a, s') -> bind c k s = k a s'.
Proof. intros H. unfold bind. now rewrite H. Qed.

Ltac step :=
  repeat first [ rewrite bind_assoc | rewrite bind_st | rewrite bind_ret
               | rewrite lift_bind | rewrite draw_draw | rewrite st_draw ].

Ltac same_session :=
  unfold log, draw; cbn [sent shown fst snd app]; rewrite <- ?app_assoc; reflexivity.

(** ** The guard [startswith("Error")] on what the [except] clauses build *)





(** ** The screens, run *)

Section Screens.

Variable API_KEY : string.
Variable remote : list request -> request -> transport_failure + response.
Variable py_repr : pyval -> string.
Variable describe_to_json : DataFrame -> result string.
Variable read_csv : UploadedFile -> result DataFrame.





Lemma getitem_has_column name (data : DataFrame) :
  has_column name data = true -> exists series, getitem data name = inr series.
Proof.
  unfold has_column, columns, getitem.
  induction data as [|[k col] data IH]; simpl; [discriminate|].
  rewrite (String.eqb_sym name k).
  destruct (String.eqb k name); simpl; [eauto | exact IH].
Qed.

Lemma within_column_st i u s :
  within_column i (st u) s = (inr tt, draw [in_column i u] s).
Proof. reflexivity. Qed.

Lemma within_column_chart i (series : Series) (chart : Series -> ui) s :
  within_column i (bind (lift (inr series)) (fun x => st (chart x))) s
  = (inr tt, draw [in_column i (chart series)] s).
Proof. reflexivity. Qed.


End Screens.

(** ** Connectivity Solutions *)

Section Connectivity.

Variable API_KEY : string.
Variable remote : list request -> request -> transport_failure + response.
Variable py_repr : pyval -> string.


End Connectivity.


(** C1, on the code.  The chat endpoint answers 500 and the image endpoint
    answers well: the text result carries the HTTP error prefix, and the
    screen draws the success box and writes the combined string; no error
    box is drawn. *)
Theorem connectivity_failure_is_shown_as_success :
  let remote := Sample.route Sample.server_error Sample.image_answer in
  let out := connectivity_solutions "k" remote Sample.show "tower down"
               (Some Sample.photo) true fresh in
  fst (get_llama_text_response "k" remote "tower down" text_model fresh)
  = inr (PyStr ("HTTP error occurred: 500 Server Error: Internal Server Error for url: "
                ++ LLAMA_TEXT_API_URL ++ " - upstream unavailable"))
  /\ shown (snd out)
     = [header "Localized Connectivity Solutions";
        subheader "User Reports"; subheader "Site Photos";
        spinner "Generating recommendations...";
        success "**Recommendations:**";
        write (PyStr ("HTTP error occurred: 500 Server Error: Internal Server Error for url: "
                      ++ LLAMA_TEXT_API_URL ++ " - upstream unavailable"
                      ++ String "010" (String "010" "Loose connector.")))]
  /\ existsb is_error_box (shown (snd out)) = false.
Proof. repeat split. Qed.

(** ** What the screens do with a failed call *)

Section Failures.

Variable API_KEY : string.
Variable remote : list request -> request -> transport_failure + response.
Variable py_repr : pyval -> string.
Variable describe_to_json : DataFrame -> result string.
Variable read_csv : UploadedFile -> result DataFrame.


End Failures.


(** ** Network Insights *)

Section Insights.

Variable API_KEY : string.
Variable remote : list request -> request -> transport_failure + response.
Variable describe_to_json : DataFrame -> result string.
Variable read_csv : UploadedFile -> result DataFrame.


End Insights.


(** ** Start-up *)

Section Startup.

Variable remote : list request -> request -> transport_failure + response.
Variable py_repr : pyval -> string.
Variable describe_to_json : DataFrame -> result string.
Variable read_csv : UploadedFile -> result DataFrame.

(** C9.  Without the credential, unset or empty, the run stops after drawing
    the error box: whatever page is selected and whatever was entered or
    pressed, nothing else is drawn and nothing is sent.  With the credential
    the run draws the page frame and is the run of the selected screen. *)
Theorem startup_requires_credential :
  (forall GROQ_API_KEY i,
      GROQ_API_KEY = None \/ GROQ_API_KEY = Some EmptyString ->
      script remote py_repr describe_to_json read_csv GROQ_API_KEY i
      = (Stopped,
         {| sent := [];
            shown := [error (PyStr
              "API Key not found. Please set the GROQ_API_KEY environment variable.")] |}))
  /\ (forall key i,
      key <> EmptyString ->
      let framed := draw [set_page_config "ConnectAssist" "wide";
                          sidebar_title "ConnectAssist"] fresh in
      script remote py_repr describe_to_json read_csv (Some key) i
      = finish
          (match mode i with
           | Home => home framed
           | Troubleshooting =>
               troubleshooting_assistant key remote (issue_text i) (get_suggestions i)
                 (issue_image i) (analyze_image i) framed
           | Training => training_modules (watch_tutorial i) framed
           | NetworkInsights =>
               network_insights key remote describe_to_json read_csv
                 (csv_file i) (analyze_data i) framed
           | ConnectivitySolutions =>
               connectivity_solutions key remote py_repr (report_text i) (site_photo i)
                 (generate_recommendations i) framed
           end)).
Proof.
  split.
  - intros GROQ_API_KEY i [-> | ->]; reflexivity.
  - intros key i Hk framed. unfold script, credential.
    destruct key as [|c key]; [congruence|]. cbn [nonempty].
    unfold main. step. fold framed. destruct (mode i); reflexivity.
Qed.

End Startup.

Lemma startup_requires_credential_witness :
  script (Sample.serve Sample.answer) Sample.show Sample.summarise Sample.parse
    None (Sample.ask "signal drops every evening")
  = (Stopped,
     {| sent := [];
        shown := [error (PyStr
          "API Key not found. Please set the GROQ_API_KEY environment variable.")] |})
  /\ fst (script (Sample.serve Sample.answer) Sample.show Sample.summarise Sample.parse
            (Some "k") (Sample.ask "signal drops every evening"))
     = Completed.
Proof.
  pose proof (startup_requires_credential (Sample.serve Sample.answer) Sample.show
                Sample.summarise Sample.parse) as [Hstop Hrun].
  split.
  - exact (Hstop None (Sample.ask "signal drops every evening") (or_introl eq_refl)).
  - rewrite (Hrun "k" (Sample.ask "signal drops every evening")); [reflexivity | discriminate].
Defined.

(** ** The tabular analysis against the text submission *)

Section Analysis.

Variable API_KEY : string.
Variable remote : list request -> request -> transport_failure + response.
Variable describe_to_json : DataFrame -> result string.

(** C2, as the code has it.  [analyze_network_data] is the text submission
    of the summary prompt with [max_tokens] 200 and temperature 0.5 and with
    the same error strings, except that its fallback on a missing key is
    ["No analysis received."]; [get_llama_text_response] is the same
    operation with 150, 0.7 and ["No response received."]. *)
Theorem analysis_is_a_text_submission :
  (forall data model s,
      analyze_network_data API_KEY remote describe_to_json data model s
      = bind (lift (describe_to_json data))
          (fun summary =>
             submit_text API_KEY remote
               ("Analyze the following network performance data summary:"
                ++ String "010" summary)
               model 200 0.5%float "No analysis received.") s)
  /\ (forall prompt model s,
      get_llama_text_response API_KEY remote prompt model s
      = submit_text API_KEY remote prompt model 150 0.7%float "No response received." s).
Proof.
  split.
  - intros data model s. rewrite lift_bind.
    destruct (describe_to_json data) as [e|summary] eqn:Hd.
    + now apply analysis_client_raises.
    + now apply analysis_client.
  - intros prompt model s. apply text_client.
Qed.

End Analysis.

(** C2, as stated, fails on the fallback: on a 2xx body without ["choices"]
    the analysis answers ["No analysis received."], the text submission with
    the client's own fallback answers ["No response received."]. *)
Lemma analysis_has_its_own_fallback :
  is_2xx Sample.empty_object
  /\ fst (analyze_network_data "k" (Sample.serve Sample.empty_object) Sample.summarise
            Sample.both_columns analysis_model fresh)
     = inr (PyStr "No analysis received.")
  /\ fst (bind (lift (Sample.summarise Sample.both_columns))
            (fun summary =>
               submit_text "k" (Sample.serve Sample.empty_object)
                 ("Analyze the following network performance data summary:"
                  ++ String "010" summary)
                 analysis_model 200 0.5%float "No response received.") fresh)
     = inr (PyStr "No response received.")
  /\ analyze_network_data "k" (Sample.serve Sample.empty_object) Sample.summarise
       Sample.both_columns analysis_model fresh
     <> bind (lift (Sample.summarise Sample.both_columns))
          (fun summary =>
             submit_text "k" (Sample.serve Sample.empty_object)
               ("Analyze the following network performance data summary:"
                ++ String "010" summary)
               analysis_model 200 0.5%float "No response received.") fresh.
Proof.
  split; [unfold is_2xx; simpl; lia|].
  split; [reflexivity|]. split; [reflexivity|].
  intros H. apply (f_equal fst) in H. vm_compute in H. discriminate.
Qed.

(** * Further properties of the client functions *)

Section ClientDetails.

Variable API_KEY : string.
Variable remote : list request -> request -> transport_failure + response.
Variable describe_to_json : DataFrame -> result string.

(** X1.  On a response that passes the status check and decodes to an
    object, [get_llama_image_response] returns what the object holds under
    ["response"], whatever its type, and ["No response received."] when the
    key is absent. *)
Theorem image_reads_the_response_key (image_bytes : bytes) (model : string)
    (s : session) (r : response) (top : list (string * pyval)) :
  remote (sent s) (image_request API_KEY image_bytes) = inr r ->
  error_status r = false ->
  json_body r = inr (PyDict top) ->
  fst (get_llama_image_response API_KEY remote image_bytes model s)
  = inr (match lookup "response" top with
         | Some v => v
         | None => PyStr "No response received."
         end).
Proof.
  intros Hr Hs Hj. rewrite image_client, Hr. cbn [fst reply]. rewrite Hs, Hj. reflexivity.
Qed.

(** X2.  On a response that passes the status check and decodes to anything
    but an object (a list, a string, a number, a boolean, [null]), the text
    and the image submission both return the text of the [AttributeError]
    raised by [.get], after ["An error occurred: "]. *)
Theorem body_that_is_no_object (r : response) (body : pyval) :
  error_status r = false ->
  json_body r = inr body ->
  (forall top, body <> PyDict top) ->
  (forall prompt model s,
      remote (sent s) (text_request API_KEY model prompt 150 0.7%float) = inr r ->
      fst (get_llama_text_response API_KEY remote prompt model s)
      = inr (PyStr ("An error occurred: '" ++ type_name body
                    ++ "' object has no attribute 'get'")))
  /\ (forall image_bytes model s,
      remote (sent s) (image_request API_KEY image_bytes) = inr r ->
      fst (get_llama_image_response API_KEY remote image_bytes model s)
      = inr (PyStr ("An error occurred: '" ++ type_name body
                    ++ "' object has no attribute 'get'"))).
Proof.
  intros Hs Hj Hb. split.
  - intros prompt model s Hr. rewrite text_client, Hr. cbn [fst reply]. rewrite Hs, Hj.
    destruct body; try reflexivity. exfalso. eapply Hb; reflexivity.
  - intros image_bytes model s Hr. rewrite image_client, Hr. cbn [fst reply].
    rewrite Hs, Hj.
    destruct body; try reflexivity. exfalso. eapply Hb; reflexivity.
Qed.

(** X3.  A call of a client function sends one request and draws nothing,
    whatever the remote does: the text submission posts the model, one
    user message with the prompt, [max_tokens] 150 and temperature 0.7 to
    the chat URL; the image submission posts the bytes as the file field
    ["image_file"] to the image URL; both carry the bearer credential.  The
    analysis posts its summary prompt with 200 and 0.5, and when the summary
    cannot be computed it raises before anything is sent. *)
Theorem one_request_per_call :
  (forall prompt model s,
      snd (get_llama_text_response API_KEY remote prompt model s)
      = {| sent := sent s
             ++ [PostJson "https://api.groq.com/openai/v1/chat/completions"
                   (PyDict [("model", PyStr model);
                            ("messages",
                             PyList [PyDict [("role", PyStr "user");
                                             ("content", PyStr prompt)]]);
                            ("max_tokens", PyInt 150);
                            ("temperature", PyFloat 0.7%float)])
                   [("Authorization", "Bearer " ++ API_KEY);
                    ("Content-Type", "application/json")]];
           shown := shown s |})
  /\ (forall image_bytes model s,
      snd (get_llama_image_response API_KEY remote image_bytes model s)
      = {| sent := sent s
             ++ [PostFiles "https://api.groq.com/llama3/image"
                   [("image_file", ("image.png", image_bytes, "image/png"))]
                   [("Authorization", "Bearer " ++ API_KEY)]];
           shown := shown s |})
  /\ (forall data model s,
      match describe_to_json data with
      | inr summary =>
          snd (analyze_network_data API_KEY remote describe_to_json data model s)
          = {| sent := sent s
                 ++ [PostJson "https://api.groq.com/openai/v1/chat/completions"
                       (PyDict [("model", PyStr model);
                                ("messages",
                                 PyList [PyDict
                                   [("role", PyStr "user");
                                    ("content",
                                     PyStr ("Analyze the following network performance data summary:"
                                            ++ String "010" summary))]]);
                                ("max_tokens", PyInt 200);
                                ("temperature", PyFloat 0.5%float)])
                       [("Authorization", "Bearer " ++ API_KEY);
                        ("Content-Type", "application/json")]];
               shown := shown s |}
      | inl e =>
          analyze_network_data API_KEY remote describe_to_json data model s = (inl e, s)
      end).
Proof.
  split; [|split].
  - intros prompt model s. rewrite text_client. reflexivity.
  - intros image_bytes model s. rewrite image_client. reflexivity.
  - intros data model s. destruct (describe_to_json data) as [e|summary] eqn:Hd.
    + now apply analysis_client_raises.
    + rewrite (analysis_client _ _ _ _ _ _ _ Hd). reflexivity.
Qed.

Lemma reply_status_line extract r :
  (400 <= status_code r < 500 ->
   reply extract (inr r) = PyStr (status_line " Client Error: " r))
  /\ (500 <= status_code r < 600 ->
      reply extract (inr r) = PyStr (status_line " Server Error: " r)).
Proof.
  unfold reply, error_status, http_error_msg, status_line.
  split; intros H.
  - replace (400 <=? status_code r) with true by (symmetry; apply Z.leb_le; lia).
    replace (status_code r <? 600) with true by (symmetry; apply Z.ltb_lt; lia).
    replace (status_code r <? 500) with true by (symmetry; apply Z.ltb_lt; lia).
    cbn [andb]. f_equal. f_equal. now rewrite !append_assoc.
  - replace (400 <=? status_code r) with true by (symmetry; apply Z.leb_le; lia).
    replace (status_code r <? 600) with true by (symmetry; apply Z.ltb_lt; lia).
    replace (status_code r <? 500) with false by (symmetry; apply Z.ltb_ge; lia).
    cbn [andb]. f_equal. f_equal. now rewrite !append_assoc.
Qed.

(** X4.  The string returned for a rejected status is fixed by the status
    line, the URL and the raw body alone: ["HTTP error occurred: "], the
    code, [" Client Error: "] for 4xx and [" Server Error: "] for 5xx, the
    reason, [" for url: "], the URL, [" - "] and the body.  The decoded body
    plays no part, so an error status wins over a well-formed answer. *)
Theorem rejected_status_line (r : response) :
  (400 <= status_code r < 500 ->
   (forall prompt model s,
       remote (sent s) (text_request API_KEY model prompt 150 0.7%float) = inr r ->
       fst (get_llama_text_response API_KEY remote prompt model s)
       = inr (PyStr (status_line " Client Error: " r)))
   /\ (forall image_bytes model s,
       remote (sent s) (image_request API_KEY image_bytes) = inr r ->
       fst (get_llama_image_response API_KEY remote image_bytes model s)
       = inr (PyStr (status_line " Client Error: " r))))
  /\ (500 <= status_code r < 600 ->
      (forall prompt model s,
          remote (sent s) (text_request API_KEY model prompt 150 0.7%float) = inr r ->
          fst (get_llama_text_response API_KEY remote prompt model s)
          = inr (PyStr (status_line " Server Error: " r)))
      /\ (forall image_bytes model s,
          remote (sent s) (image_request API_KEY image_bytes) = inr r ->
          fst (get_llama_image_response API_KEY remote image_bytes model s)
          = inr (PyStr (status_line " Server Error: " r)))).
Proof.
  split; intros H; split.
  - intros prompt model s Hr. rewrite text_client, Hr. cbn [fst]. f_equal.
    now apply reply_status_line.
  - intros image_bytes model s Hr. rewrite image_client, Hr. cbn [fst]. f_equal.
    now apply reply_status_line.
  - intros prompt model s Hr. rewrite text_client, Hr. cbn [fst]. f_equal.
    now apply reply_status_line.
  - intros image_bytes model s Hr. rewrite image_client, Hr. cbn [fst]. f_equal.
    now apply reply_status_line.
Qed.

End ClientDetails.

(** * Further properties of the screens *)

(** ** How the history and the page grow *)

Lemma extends_refl n K s : extends_by n K s s.
Proof.
  exists [], []. rewrite !app_nil_r. repeat split; auto. simpl; lia.
Qed.

Lemma extends_trans n m K s s' s'' :
  extends_by n K s s' -> extends_by m K s' s'' -> extends_by (n + m) K s s''.
Proof.
  intros (new & drawn & Hs & Hd & Hn & Ha) (new' & drawn' & Hs' & Hd' & Hn' & Ha').
  exists (new ++ new')%list, (drawn ++ drawn')%list.
  rewrite Hs', Hs, Hd', Hd, !app_assoc, length_app.
  repeat split; auto; [lia | apply Forall_app; auto].
Qed.

Lemma extends_weaken n m K s s' :
  (n <= m)%nat -> extends_by n K s s' -> extends_by m K s s'.
Proof.
  intros Hle (new & drawn & Hs & Hd & Hn & Ha).
  exists new, drawn. repeat split; auto; lia.
Qed.

Lemma sends_weaken {A : Type} n m K (c : M A) :
  (n <= m)%nat -> sends n K c -> sends m K c.
Proof. intros Hle H s. eapply extends_weaken; eauto. Qed.

Lemma sends_ret {A : Type} n K (a : A) : sends n K (ret a).
Proof. intros s. apply extends_refl. Qed.

Lemma sends_raise {A : Type} n K (e : exn) : sends n K (@raise A e).
Proof. intros s. apply extends_refl. Qed.

Lemma sends_lift {A : Type} n K (r : result A) : sends n K (lift r).
Proof. intros s. apply extends_refl. Qed.

Lemma sends_st n K u : sends n K (st u).
Proof.
  intros s. exists [], [u]. cbn. rewrite app_nil_r. repeat split; auto. lia.
Qed.

Lemma sends_bind {A B : Type} n m K (c : M A) (k : A -> M B) :
  sends n K c -> (forall a, sends m K (k a)) -> sends (n + m) K (bind c k).
Proof.
  intros Hc Hk s. specialize (Hc s). unfold bind.
  destruct (c s) as [[e|a] s']; cbn [snd] in *.
  - eapply extends_weaken; [|exact Hc]. lia.
  - eapply extends_trans; [exact Hc | apply Hk].
Qed.

Lemma sends_bind_quiet {A B : Type} n K (c : M A) (k : A -> M B) :
  sends 0 K c -> (forall a, sends n K (k a)) -> sends n K (bind c k).
Proof. intros Hc Hk. exact (sends_bind 0 n K c k Hc Hk). Qed.

Lemma sends_bind_one {A B : Type} n K (c : M A) (k : A -> M B) :
  sends 1 K c -> (forall a, sends n K (k a)) -> sends (S n) K (bind c k).
Proof. intros Hc Hk. exact (sends_bind 1 n K c k Hc Hk). Qed.

Lemma sends_try_except {A : Type} n K (c : M A) (handler : exn -> M A) :
  sends n K c -> (forall e, sends 0 K (handler e)) -> sends n K (try_except c handler).
Proof.
  intros Hc Hh s. specialize (Hc s). unfold try_except.
  destruct (c s) as [[e|a] s']; cbn [snd] in *; [|exact Hc].
  replace n with (n + 0)%nat by lia.
  eapply extends_trans; [exact Hc | apply Hh].
Qed.

Lemma sends_within_column {A : Type} n K i (c : M A) :
  sends n K c -> sends n K (within_column i c).
Proof.
  intros Hc s. unfold within_column.
  destruct (Hc {| sent := sent s; shown := [] |}) as (new & drawn & Hs & Hd & Hn & Ha).
  destruct (c _) as [r s']; cbn [snd sent shown] in *.
  exists new, (map (in_column i) drawn). rewrite Hd. repeat split; auto.
Qed.

Lemma authorised_text K model prompt max_tokens temperature :
  authorised K (text_request K model prompt max_tokens temperature).
Proof. split; reflexivity. Qed.

Lemma authorised_image K image_bytes : authorised K (image_request K image_bytes).
Proof. split; reflexivity. Qed.

Lemma extends_log n K req s : authorised K req -> extends_by (S n) K s (log req s).
Proof.
  intros Ha. exists [req], []. cbn. rewrite app_nil_r.
  repeat split; auto. lia.
Qed.

Section Budget.

Variable API_KEY : string.
Variable remote : list request -> request -> transport_failure + response.
Variable py_repr : pyval -> string.
Variable describe_to_json : DataFrame -> result string.
Variable read_csv : UploadedFile -> result DataFrame.

Lemma sends_text n prompt model :
  sends (S n) API_KEY (get_llama_text_response API_KEY remote prompt model).
Proof. intros s. rewrite text_client. apply extends_log, authorised_text. Qed.

Lemma sends_image n image_bytes model :
  sends (S n) API_KEY (get_llama_image_response API_KEY remote image_bytes model).
Proof. intros s. rewrite image_client. apply extends_log, authorised_image. Qed.

Lemma sends_analysis n data model :
  sends (S n) API_KEY (analyze_network_data API_KEY remote describe_to_json data model).
Proof.
  intros s. destruct (describe_to_json data) as [e|summary] eqn:Hd.
  - rewrite (analysis_client_raises _ _ _ _ _ _ _ Hd). apply extends_refl.
  - rewrite (analysis_client _ _ _ _ _ _ _ Hd). apply extends_log, authorised_text.
Qed.

End Budget.

Ltac budget :=
  cbv beta;
  first
    [ apply sends_ret | apply sends_raise | apply sends_lift | apply sends_st
    | apply sends_text | apply sends_image | apply sends_analysis
    | apply sends_within_column; budget
    | apply sends_try_except; [ budget | intros; budget ]
    | apply sends_bind_quiet; [ solve [budget] | intros; budget ]
    | apply sends_bind_one; [ solve [budget] | intros; budget ]
    | match goal with
      | |- sends _ _ (if ?b then _ else _) => destruct b; budget
      | |- sends _ _ (match ?o with Some _ => _ | None => _ end) => destruct o; budget
      end ].

(** ** What a render can raise *)










Section Renders.

Variable API_KEY : string.
Variable remote : list request -> request -> transport_failure + response.
Variable py_repr : pyval -> string.
Variable describe_to_json : DataFrame -> result string.
Variable read_csv : UploadedFile -> result DataFrame.

Lemma sends_home n : sends n API_KEY home.
Proof. unfold home. budget. Qed.

Lemma sends_training n watch : sends n API_KEY (training_modules watch).
Proof. unfold training_modules. budget. Qed.

Lemma sends_troubleshooting issue suggest image analyze :
  sends 2 API_KEY (troubleshooting_assistant API_KEY remote issue suggest image analyze).
Proof. unfold troubleshooting_assistant. budget. Qed.

Lemma sends_insights n file analyze :
  sends (S n) API_KEY
    (network_insights API_KEY remote describe_to_json read_csv file analyze).
Proof. unfold network_insights. budget. Qed.

Lemma sends_connectivity report image generate :
  sends 2 API_KEY (connectivity_solutions API_KEY remote py_repr report image generate).
Proof. unfold connectivity_solutions. budget. Qed.

End Renders.

Section Pages.

Variable API_KEY : string.
Variable remote : list request -> request -> transport_failure + response.
Variable py_repr : pyval -> string.
Variable describe_to_json : DataFrame -> result string.
Variable read_csv : UploadedFile -> result DataFrame.

(** X11.  Whatever page is selected, whatever is entered and pressed and
    whatever the remote answers, a render only appends to the request
    history and to the page; it sends at most two requests, and each of them
    goes to the chat URL as JSON or to the image URL as files with the
    header [Authorization: Bearer <key>]. *)
Theorem render_budget (i : inputs) (s : session) :
  extends_by 2 API_KEY s
    (snd (main API_KEY remote py_repr describe_to_json read_csv i s)).
Proof.
  revert s. change (sends 2 API_KEY (main API_KEY remote py_repr describe_to_json read_csv i)).
  unfold main.
  apply sends_bind_quiet; [apply sends_st | intros _].
  apply sends_bind_quiet; [apply sends_st | intros _].
  destruct (mode i).
  - apply sends_home.
  - apply sends_troubleshooting.
  - apply sends_training.
  - apply sends_insights.
  - apply sends_connectivity.
Qed.



End Pages.

(** ** Edge cases of the screens *)

Section Edges.

Variable API_KEY : string.
Variable remote : list request -> request -> transport_failure + response.
Variable describe_to_json : DataFrame -> result string.
Variable read_csv : UploadedFile -> result DataFrame.

Lemma insights_panels (data : DataFrame) :
  exists p1 p2,
    (forall s, within_column 1
        (if has_column "signal_strength" data
         then bind (lift (getitem data "signal_strength"))
                   (fun series => st (line_chart series))
         else st (write (PyStr "**signal_strength** column not found."))) s
        = (inr tt, draw [in_column 1 p1] s))
    /\ (forall s, within_column 2
        (if has_column "bandwidth_usage" data
         then bind (lift (getitem data "bandwidth_usage"))
                   (fun series => st (bar_chart series))
         else st (write (PyStr "**bandwidth_usage** column not found."))) s
        = (inr tt, draw [in_column 2 p2] s)).
Proof.
  destruct (has_column "signal_strength" data) eqn:H1;
    destruct (has_column "bandwidth_usage" data) eqn:H2;
    try (destruct (getitem_has_column _ _ H1) as [s1 ->]);
    try (destruct (getitem_has_column _ _ H2) as [s2 ->]);
    do 2 eexists; split; intros s; reflexivity.
Qed.

(** X5.  An upload that [read_csv] rejects with [e]: the screen draws its
    two headings and one error box reading ["Error processing the file: "]
    and the text of [e]; no preview, no chart, no request, no exception,
    whether or not the analysis button is pressed. *)
Theorem insights_parse_failure (file : UploadedFile) (analyze : bool) (s : session)
    (e : exn) :
  read_csv file = inl e ->
  network_insights API_KEY remote describe_to_json read_csv (Some file) analyze s
  = (inr tt,
     {| sent := sent s;
        shown := shown s
          ++ [header "Network Optimization Insights";
              subheader "Upload Network Performance Data";
              error (PyStr ("Error processing the file: " ++ exn_str e))] |}).
Proof.
  intros Hcsv. unfold network_insights. step. unfold try_except. step. rewrite Hcsv.
  step. same_session.
Qed.

(** X6.  The table parsed, the analysis button pressed, and the summary
    cannot be computed ([describe().to_json()] raises [e]): nothing is sent,
    and after the charts and the spinner the screen draws the error box of
    the upload handler, ["Error processing the file: "] and the text of
    [e]. *)
Theorem insights_summary_failure (file : UploadedFile) (data : DataFrame)
    (s : session) (e : exn) :
  read_csv file = inr data ->
  describe_to_json data = inl e ->
  exists p1 p2,
    network_insights API_KEY remote describe_to_json read_csv (Some file) true s
    = (inr tt,
       {| sent := sent s;
          shown := shown s
            ++ [header "Network Optimization Insights";
                subheader "Upload Network Performance Data";
                write (PyStr "**Data Preview:**"); dataframe (head data);
                subheader "Performance Metrics"; in_column 1 p1; in_column 2 p2;
                spinner "Analyzing data...";
                error (PyStr ("Error processing the file: " ++ exn_str e))] |}).
Proof.
  intros Hcsv Hd. destruct (insights_panels data) as (p1 & p2 & Hp1 & Hp2).
  exists p1, p2.
  unfold network_insights. step. unfold try_except. step. rewrite Hcsv. step.
  rewrite (bind_run _ _ _ _ _ (Hp1 _)). rewrite (bind_run _ _ _ _ _ (Hp2 _)). step.
  unfold bind at 1. rewrite (analysis_client_raises _ _ _ _ _ _ _ Hd). step.
  same_session.
Qed.

(** X7.  The analysis returned a value that is no string (the content field
    held a number, a list, an object or [null]): [analysis.startswith]
    raises inside the screen's [try], and the screen draws the upload
    handler's error box with the text of that [AttributeError]; the request
    was sent, nothing is raised. *)
Theorem insights_reply_that_is_no_string (file : UploadedFile) (data : DataFrame)
    (summary : string) (s : session) (v : pyval) :
  read_csv file = inr data ->
  describe_to_json data = inr summary ->
  fst (analyze_network_data API_KEY remote describe_to_json data analysis_model s)
  = inr v ->
  is_str v = false ->
  exists p1 p2,
    network_insights API_KEY remote describe_to_json read_csv (Some file) true s
    = (inr tt,
       {| sent := sent s
            ++ [text_request API_KEY analysis_model (analysis_prompt summary)
                  200 0.5%float];
          shown := shown s
            ++ [header "Network Optimization Insights";
                subheader "Upload Network Performance Data";
                write (PyStr "**Data Preview:**"); dataframe (head data);
                subheader "Performance Metrics"; in_column 1 p1; in_column 2 p2;
                spinner "Analyzing data...";
                error (PyStr ("Error processing the file: '" ++ type_name v
                              ++ "' object has no attribute 'startswith'"))] |}).
Proof.
  intros Hcsv Hd Hv Hs. destruct (insights_panels data) as (p1 & p2 & Hp1 & Hp2).
  exists p1, p2.
  rewrite (analysis_client _ _ _ _ _ _ _ Hd) in Hv. cbn [fst] in Hv. inversion Hv as [Hv'].
  unfold network_insights. step. unfold try_except. step. rewrite Hcsv. step.
  rewrite (bind_run _ _ _ _ _ (Hp1 _)). rewrite (bind_run _ _ _ _ _ (Hp2 _)). step.
  rewrite (bind_run _ _ _ _ _ (analysis_client _ _ _ _ _ _ _ Hd)). step.
  unfold log, draw. cbn [sent shown app]. rewrite Hv'.
  destruct v; try discriminate; cbn [py_startswith]; step; cbv beta iota; step;
    same_session.
Qed.


(** X9.  Troubleshooting, a description entered, the suggestion button
    pressed, and the call returns a string [c], be it an answer of the model
    or an error string: if [c] begins with ["Error"] it is drawn in the
    error box and no success box precedes it, otherwise it is written under
    the success box.  So an answer of the model that begins with ["Error"]
    is shown as a failure. *)
Theorem troubleshooting_routes_on_the_prefix (issue : string)
    (image : option UploadedFile) (analyze : bool) (s : session) (c : string) :
  issue <> EmptyString ->
  fst (get_llama_text_response API_KEY remote issue text_model s) = inr (PyStr c) ->
  exists rest,
    shown (snd (troubleshooting_assistant API_KEY remote issue true image analyze s))
    = (shown s
       ++ [header "Real-Time Troubleshooting Assistant"; subheader "Describe the Issue";
           spinner "Processing..."]
       ++ (if startswith c "Error" then [error (PyStr c)]
           else [success "**Diagnostic Suggestions:**"; write (PyStr c)])
       ++ rest)%list.
Proof.
  intros Hi Hv.
  assert (Hn : nonempty issue = true) by (destruct issue; [congruence | reflexivity]).
  rewrite text_client in Hv. cbn [fst] in Hv. inversion Hv as [Hv'].
  unfold troubleshooting_assistant. rewrite Hn. step.
  rewrite (bind_run _ _ _ _ _ (text_client _ _ _ _ _)).
  unfold log, draw. cbn [sent shown app]. rewrite Hv'. step. cbn [py_startswith].
  destruct (startswith c "Error"); step;
    (destruct image as [image|]; step;
     [ destruct analyze; step;
       [ rewrite (bind_run _ _ _ _ _ (image_client _ _ _ _ _)); step;
         match goal with |- context [py_startswith ?w "Error"] =>
           destruct (py_startswith w "Error") as [e|[|]] end; step;
         eexists; same_session
       | eexists; same_session ]
     | eexists; same_session ]).
Qed.

(** X10.  Troubleshooting, a description entered, the suggestion button
    pressed, and the call returns a value [v] that is no string: the screen
    raises the [AttributeError] of [response.startswith] right after the
    spinner; the request has been sent, no answer is drawn, and the image
    half of the screen is not rendered. *)
Theorem troubleshooting_reply_that_is_no_string (issue : string)
    (image : option UploadedFile) (analyze : bool) (s : session) (v : pyval) :
  issue <> EmptyString ->
  fst (get_llama_text_response API_KEY remote issue text_model s) = inr v ->
  is_str v = false ->
  troubleshooting_assistant API_KEY remote issue true image analyze s
  = (inl (AttributeError ("'" ++ type_name v ++ "' object has no attribute 'startswith'")),
     {| sent := sent s ++ [text_request API_KEY text_model issue 150 0.7%float];
        shown := shown s
          ++ [header "Real-Time Troubleshooting Assistant";
              subheader "Describe the Issue"; spinner "Processing..."] |}).
Proof.
  intros Hi Hv Hs.
  assert (Hn : nonempty issue = true) by (destruct issue; [congruence | reflexivity]).
  rewrite text_client in Hv. cbn [fst] in Hv. inversion Hv as [Hv'].
  unfold troubleshooting_assistant. rewrite Hn. step.
  rewrite (bind_run _ _ _ _ _ (text_client _ _ _ _ _)).
  unfold log, draw. cbn [sent shown app]. rewrite Hv'.
  destruct v; try discriminate; cbn [py_startswith]; step; same_session.
Qed.

End Edges.

(** ** The further properties on the sample remotes *)

Lemma image_reads_the_response_key_witness :
  fst (get_llama_image_response "k" (Sample.serve Sample.image_answer)
         (read Sample.photo) image_model fresh)
  = inr (PyStr "Loose connector.").
Proof.
  exact (image_reads_the_response_key "k" (Sample.serve Sample.image_answer)
           (read Sample.photo) image_model fresh Sample.image_answer
           [("response", PyStr "Loose connector.")] eq_refl eq_refl eq_refl).
Defined.

Lemma body_that_is_no_object_witness :
  fst (get_llama_text_response "k" (Sample.serve Sample.array_body)
         "signal drops every evening" text_model fresh)
  = inr (PyStr "An error occurred: 'list' object has no attribute 'get'")
  /\ fst (get_llama_image_response "k" (Sample.serve Sample.array_body)
            (read Sample.photo) image_model fresh)
     = inr (PyStr "An error occurred: 'list' object has no attribute 'get'").
Proof.
  assert (H : forall top, PyList [] <> PyDict top) by discriminate.
  pose proof (body_that_is_no_object "k" (Sample.serve Sample.array_body)
                Sample.array_body (PyList []) eq_refl eq_refl H) as [Htext Himage].
  split.
  - exact (Htext "signal drops every evening" text_model fresh eq_refl).
  - exact (Himage (read Sample.photo) image_model fresh eq_refl).
Defined.

Lemma rejected_status_line_witness :
  fst (get_llama_text_response "k" (Sample.serve Sample.not_found)
         "signal drops every evening" text_model fresh)
  = inr (PyStr (status_line " Client Error: " Sample.not_found))
  /\ fst (get_llama_image_response "k" (Sample.serve Sample.server_error)
            (read Sample.photo) image_model fresh)
     = inr (PyStr (status_line " Server Error: " Sample.server_error)).
Proof.
  split.
  - refine (proj1 (proj1 (rejected_status_line "k" (Sample.serve Sample.not_found)
                            Sample.not_found) _)
                  "signal drops every evening" text_model fresh eq_refl).
    simpl; lia.
  - refine (proj2 (proj2 (rejected_status_line "k" (Sample.serve Sample.server_error)
                            Sample.server_error) _)
                  (read Sample.photo) image_model fresh eq_refl).
    simpl; lia.
Defined.

Lemma insights_parse_failure_witness :
  network_insights "k" (Sample.serve Sample.answer) Sample.summarise Sample.reject
    (Some Sample.log_csv) true fresh
  = (inr tt,
     {| sent := [];
        shown := [header "Network Optimization Insights";
                  subheader "Upload Network Performance Data";
                  error (PyStr "Error processing the file: No columns to parse from file")] |}).
Proof.
  exact (insights_parse_failure "k" (Sample.serve Sample.answer) Sample.summarise
           Sample.reject Sample.log_csv true fresh
           (ValueError "No columns to parse from file") eq_refl).
Defined.

Lemma insights_summary_failure_witness :
  exists p1 p2,
    network_insights "k" (Sample.serve Sample.answer) Sample.no_summary Sample.parse
      (Some Sample.log_csv) true fresh
    = (inr tt,
       {| sent := sent fresh;
          shown := shown fresh
            ++ [header "Network Optimization Insights";
                subheader "Upload Network Performance Data";
                write (PyStr "**Data Preview:**"); dataframe (head Sample.both_columns);
                subheader "Performance Metrics"; in_column 1 p1; in_column 2 p2;
                spinner "Analyzing data...";
                error (PyStr ("Error processing the file: "
                              ++ exn_str (ValueError
                                   "Cannot describe a DataFrame without columns")))] |}).
Proof.
  exact (insights_summary_failure "k" (Sample.serve Sample.answer) Sample.no_summary
           Sample.parse Sample.log_csv Sample.both_columns fresh
           (ValueError "Cannot describe a DataFrame without columns") eq_refl eq_refl).
Defined.

Lemma insights_reply_that_is_no_string_witness :
  exists p1 p2,
    network_insights "k" (Sample.serve Sample.null_content) Sample.summarise Sample.parse
      (Some Sample.log_csv) true fresh
    = (inr tt,
       {| sent := sent fresh
            ++ [text_request "k" analysis_model (analysis_prompt "{}") 200 0.5%float];
          shown := shown fresh
            ++ [header "Network Optimization Insights";
                subheader "Upload Network Performance Data";
                write (PyStr "**Data Preview:**"); dataframe (head Sample.both_columns);
                subheader "Performance Metrics"; in_column 1 p1; in_column 2 p2;
                spinner "Analyzing data...";
                error (PyStr ("Error processing the file: '" ++ type_name PyNone
                              ++ "' object has no attribute 'startswith'"))] |}).
Proof.
  exact (insights_reply_that_is_no_string "k" (Sample.serve Sample.null_content)
           Sample.summarise Sample.parse Sample.log_csv Sample.both_columns "{}" fresh
           PyNone eq_refl eq_refl eq_refl eq_refl).
Defined.

Lemma troubleshooting_routes_on_the_prefix_witness :
  exists rest,
    shown (snd (troubleshooting_assistant "k"
                  (Sample.serve Sample.answer_beginning_with_error)
                  "signal drops every evening" true None false fresh))
    = (shown fresh
       ++ [header "Real-Time Troubleshooting Assistant"; subheader "Describe the Issue";
           spinner "Processing..."]
       ++ (if startswith "Error 12 on the feeder: reseat it." "Error"
           then [error (PyStr "Error 12 on the feeder: reseat it.")]
           else [success "**Diagnostic Suggestions:**";
                 write (PyStr "Error 12 on the feeder: reseat it.")])
       ++ rest)%list.
Proof.
  apply (troubleshooting_routes_on_the_prefix "k"
           (Sample.serve Sample.answer_beginning_with_error)
           "signal drops every evening" None false fresh
           "Error 12 on the feeder: reseat it.").
  - discriminate.
  - reflexivity.
Defined.

Lemma troubleshooting_reply_that_is_no_string_witness :
  troubleshooting_assistant "k" (Sample.serve Sample.null_content)
    "signal drops every evening" true (Some Sample.photo) true fresh
  = (inl (AttributeError ("'" ++ type_name PyNone
                          ++ "' object has no attribute 'startswith'")),
     {| sent := sent fresh
          ++ [text_request "k" text_model "signal drops every evening" 150 0.7%float];
        shown := shown fresh
          ++ [header "Real-Time Troubleshooting Assistant";
              subheader "Describe the Issue"; spinner "Processing..."] |}).
Proof.
  apply (troubleshooting_reply_that_is_no_string "k" (Sample.serve Sample.null_content)
           "signal drops every evening" (Some Sample.photo) true fresh PyNone).
  - discriminate.
  - reflexivity.
  - reflexivity.
Defined.


